(** * MorphNFT: the token registry, the Hardhat client scripts and the viewer

    The repository is a tutorial whose executable content is
    - the Solidity contract [MorphNFT] (README.md, step 3),
    - the Hardhat scripts [scripts/deploy.js] and [scripts/mint.js],
    - the React component [morph-nft-frontend/src/App.js].

    The contract is embedded as a state-and-revert monad over the registry
    storage; the scripts and the viewer as sequences of awaited operations
    in a monad of JavaScript promises, run against an arbitrary
    environment. *)

From stdpp Require Import base numbers option list strings gmap.

Local Open Scope Z_scope.

(** ** Registry storage and the execution monad *)

Module MorphNFT.

(** A 160-bit account identifier; [0] is Solidity's [address(0)]. *)
Definition address : Type := N.

Definition zero_address : address := 0%N.

(** The largest [uint256]. *)
Definition uint256_max : Z := 2 ^ 256 - 1.

(** Reasons for which a call reverts.  [Authorization] is Ownable's
    "caller is not the owner", [NotFound] is ERC721's "invalid token ID",
    [ArithmeticPanic] is the compiler's Panic(0x11) of checked arithmetic. *)
Inductive Error : Type :=
| Authorization
| NotFound
| MintToZeroAddress
| AlreadyMinted
| NonReceiver
| URISetOfNonexistentToken
| ArithmeticPanic.

#[global] Instance Error_eq_dec : EqDecision Error.
Proof. solve_decision. Defined.

(** The contract's storage, as the data model names it: Ownable's [owner],
    the contract's own [tokenCounter], the ownership mapping [tokens] and
    the URI mapping [tokenURIs].  Balances, approvals and the event log of
    the token standard are left out: [createNFT] and the two reads neither
    test them nor return them. *)
Record Registry : Type := mkRegistry {
  owner : address;
  tokenCounter : Z;
  tokens : gmap Z address;
  tokenURIs : gmap Z string
}.

Definition set_tokens (f : gmap Z address -> gmap Z address) (s : Registry) : Registry :=
  {| owner := owner s; tokenCounter := tokenCounter s;
     tokens := f (tokens s); tokenURIs := tokenURIs s |}.

Definition set_tokenURIs (f : gmap Z string -> gmap Z string) (s : Registry) : Registry :=
  {| owner := owner s; tokenCounter := tokenCounter s;
     tokens := tokens s; tokenURIs := f (tokenURIs s) |}.

Definition set_tokenCounter (c : Z) (s : Registry) : Registry :=
  {| owner := owner s; tokenCounter := c;
     tokens := tokens s; tokenURIs := tokenURIs s |}.

(** A message call either reverts with an [Error] (and then nothing it
    wrote survives) or returns a value and the new storage. *)
Definition EVM (A : Type) : Type := Registry -> Error + A * Registry.

Definition ret {A} (a : A) : EVM A := fun s => inr (a, s).

Definition bind {A B} (m : EVM A) (k : A -> EVM B) : EVM B :=
  fun s => match m s with
           | inl e => inl e
           | inr (a, s') => k a s'
           end.

Definition revert {A} (e : Error) : EVM A := fun _ => inl e.

Definition gets {A} (f : Registry -> A) : EVM A := fun s => inr (f s, s).

Definition modify (f : Registry -> Registry) : EVM unit := fun s => inr (tt, f s).

Definition require (b : bool) (e : Error) : EVM unit :=
  if b then ret tt else revert e.

Declare Scope evm_scope.
Delimit Scope evm_scope with evm.
Notation "x <- m ;; k" := (bind m (fun x => k))
  (at level 100, m at next level, right associativity) : evm_scope.
Notation "m ;;; k" := (bind m (fun _ => k))
  (at level 100, right associativity) : evm_scope.
Local Open Scope evm_scope.

(** [a + b] on [uint256] as Solidity >= 0.8 compiles it: the sum, or a
    panic when it does not fit. *)
Definition checked_add (a b : Z) : EVM Z :=
  if bool_decide (a + b <= uint256_max) then ret (a + b) else revert ArithmeticPanic.

Section Contract.

(** Modelled from the spec: the inherited safe-assignment check of the token
    standard (OpenZeppelin's [_checkOnERC721Received], not under src/).  Its
    answer is given by the receiving account, outside the registry, so it is
    a parameter [operator from to tokenId]; an externally owned account
    always accepts.  The receiver is taken not to call back into the
    registry while it answers. *)
Variable _checkOnERC721Received : address -> address -> address -> Z -> bool.

(** Modelled from the spec: the inherited lookup of the ownership mapping
    ([_ownerOf], not under src/); an unassigned identifier reads as
    [address(0)]. *)
Definition _ownerOf (tokenId : Z) : EVM address :=
  gets (fun s => default zero_address (tokens s !! tokenId)).

(** Modelled from the spec: the inherited existence test ([_exists], not
    under src/): an identifier is assigned when its owner is not
    [address(0)]. *)
Definition _exists (tokenId : Z) : EVM bool :=
  a <- _ownerOf tokenId ;;
  ret (negb (N.eqb a zero_address)).

(** Modelled from the spec: the inherited [_mint] (OpenZeppelin's ERC721, not
    under src/), the token-existence bookkeeping the specification leaves to
    the library: it refuses [address(0)] and an identifier that already has
    an owner, and records [tokens[tokenId] = to]. *)
Definition _mint (to : address) (tokenId : Z) : EVM unit :=
  require (negb (N.eqb to zero_address)) MintToZeroAddress ;;;
  ex <- _exists tokenId ;;
  require (negb ex) AlreadyMinted ;;;
  modify (set_tokens (insert tokenId to)).

(** Modelled from the spec: the inherited [_safeMint] (OpenZeppelin's ERC721,
    not under src/): [_mint] followed by the safe-assignment check with
    [from = address(0)]; [sender] is the operator, [msg.sender]. *)
Definition _safeMint (sender to : address) (tokenId : Z) : EVM unit :=
  _mint to tokenId ;;;
  require (_checkOnERC721Received sender zero_address to tokenId) NonReceiver.

(** Modelled from the spec: the inherited [_setTokenURI] (OpenZeppelin's
    ERC721URIStorage, not under src/): records [tokenURIs[tokenId] = uri]
    for an assigned identifier. *)
Definition _setTokenURI (tokenId : Z) (uri : string) : EVM unit :=
  ex <- _exists tokenId ;;
  require ex URISetOfNonexistentToken ;;;
  modify (set_tokenURIs (insert tokenId uri)).

(** Modelled from the spec: the inherited modifier [onlyOwner]
    (OpenZeppelin's Ownable, not under src/): the body runs only when the
    caller is [owner], otherwise the call fails with Authorization. *)
Definition onlyOwner {A} (sender : address) (body : EVM A) : EVM A :=
  o <- gets owner ;;
  require (N.eqb o sender) Authorization ;;;
  body.

(** [constructor() ERC721("MorphNFT", "MNFT") { tokenCounter = 0; }] with
    Ownable's constructor making the deployer the owner. *)
Definition constructor (sender : address) : Registry :=
  {| owner := sender; tokenCounter := 0; tokens := ∅; tokenURIs := ∅ |}.

(** [function createNFT(string memory tokenURI) public onlyOwner
    returns (uint256)], with [sender] for [msg.sender]; the last but one
    line is [tokenCounter += 1], checked since the pragma is ^0.8. *)
Definition createNFT (sender : address) (tokenURI : string) : EVM Z :=
  onlyOwner sender (
    newItemId <- gets tokenCounter ;;
    _safeMint sender sender newItemId ;;;
    _setTokenURI newItemId tokenURI ;;;
    (c <- gets tokenCounter ;;
     c' <- checked_add c 1 ;;
     modify (set_tokenCounter c')) ;;;
    ret newItemId).

(** Modelled from the spec: [readOwnerOf], the inherited [ownerOf] (not
    under src/): the owner of an assigned identifier, NotFound otherwise. *)
Definition ownerOf (tokenId : Z) : EVM address :=
  a <- _ownerOf tokenId ;;
  require (negb (N.eqb a zero_address)) NotFound ;;;
  ret a.

(** Modelled from the spec: [readMetadataPointer], the inherited [tokenURI]
    of the URI storage extension with its empty base URI (not under src/):
    the stored pointer of an assigned identifier, NotFound otherwise. *)
Definition tokenURI (tokenId : Z) : EVM string :=
  ex <- _exists tokenId ;;
  require ex NotFound ;;;
  gets (fun s => default "" (tokenURIs s !! tokenId)).

(** *** Transactions and call sequences *)

Inductive Call : Type :=
| CreateNFT (sender : address) (uri : string)
| OwnerOf (tokenId : Z)
| TokenURI (tokenId : Z).

Inductive Value : Type :=
| VId (tokenId : Z)
| VAddress (a : address)
| VString (s : string).

(** A call made from outside: on revert the storage is the one before the
    call. *)
Definition transact {A} (m : EVM A) (s : Registry) : (Error + A) * Registry :=
  match m s with
  | inl e => (inl e, s)
  | inr (a, s') => (inr a, s')
  end.

Definition fmap_result {A B} (f : A -> B) (r : (Error + A) * Registry)
  : (Error + B) * Registry :=
  (match r.1 with inl e => inl e | inr a => inr (f a) end, r.2).

Definition exec (c : Call) (s : Registry) : (Error + Value) * Registry :=
  match c with
  | CreateNFT sender uri => fmap_result VId (transact (createNFT sender uri) s)
  | OwnerOf tokenId => fmap_result VAddress (transact (ownerOf tokenId) s)
  | TokenURI tokenId => fmap_result VString (transact (tokenURI tokenId) s)
  end.

(** Runs the calls in order; the results are listed in call order. *)
Fixpoint run (cs : list Call) (s : Registry) : list (Error + Value) * Registry :=
  match cs with
  | [] => ([], s)
  | c :: cs' =>
      let r := exec c s in
      let rs := run cs' r.2 in
      (r.1 :: rs.1, rs.2)
  end.

(** The identifiers returned by the successful creations of a run. *)
Fixpoint created (rs : list (Error + Value)) : list Z :=
  match rs with
  | [] => []
  | inr (VId i) :: rs' => i :: created rs'
  | _ :: rs' => created rs'
  end.

(** *** The closed form of [createNFT], and the registry invariant *)

(** The storage a successful [createNFT] by [sender] leaves behind. *)
Definition minted (sender : address) (uri : string) (s : Registry) : Registry :=
  {| owner := owner s;
     tokenCounter := tokenCounter s + 1;
     tokens := <[tokenCounter s := sender]> (tokens s);
     tokenURIs := <[tokenCounter s := uri]> (tokenURIs s) |}.

(** The guards [createNFT] goes through, in the order it meets them. *)
Definition createNFT_guard (sender : address) (s : Registry) : option Error :=
  if negb (N.eqb (owner s) sender) then Some Authorization
  else if N.eqb sender zero_address then Some MintToZeroAddress
  else if negb (N.eqb (default zero_address (tokens s !! tokenCounter s)) zero_address)
       then Some AlreadyMinted
  else if negb (_checkOnERC721Received sender zero_address sender (tokenCounter s))
       then Some NonReceiver
  else if negb (bool_decide (tokenCounter s + 1 <= uint256_max)) then Some ArithmeticPanic
  else None.

(** The invariant of a registry deployed by [d] (data model, section 3). *)
Definition invariant (d : address) (s : Registry) : Prop :=
  owner s = d /\ 0 <= tokenCounter s /\
  (forall id, is_Some (tokens s !! id) <-> 0 <= id < tokenCounter s) /\
  (forall id, is_Some (tokenURIs s !! id) <-> 0 <= id < tokenCounter s) /\
  (forall id a, tokens s !! id = Some a -> a = d /\ a <> zero_address).

End Contract.

(** A receiver check that accepts everyone, as for externally owned
    accounts. *)
Definition accept_all : address -> address -> address -> Z -> bool :=
  fun _ _ _ _ => true.

(** The scenarios of the specification's section 8, as one call sequence
    on a registry deployed by account 7. *)
Definition scenario : list Call :=
  [CreateNFT 7%N "https://x/1.json"; TokenURI 0; OwnerOf 0;
   CreateNFT 8%N "https://x/2.json"; TokenURI 0;
   CreateNFT 7%N "https://x/3.json"].

End MorphNFT.

(** ** Asynchronous JavaScript: awaited operations against an environment *)

Module Async.

(** A thrown value: a [TypeError] raised by the script itself, the
    reason with which an awaited promise was rejected, or an [Error]
    thrown by a library call that is not awaited. *)
Inductive JsError : Type :=
| TypeError (msg : string)
| Rejected (reason : string)
| ThrownError (msg : string).

Section Monad.

(** The operations a program awaits, and what each resolves to. *)
Variable Op : Type.
Variable result : Op -> Type.
(** What the program can change locally (console and exit code, or
    component state). *)
Variable Local : Type.

(** The environment (network, wallet) settles every awaited operation,
    knowing the operations performed before it. *)
Definition Env : Type := list Op -> forall op : Op, JsError + result op.

Record World : Type := mkWorld {
  performed : list Op;
  local : Local
}.

(** An [async] body: a throw keeps everything done so far. *)
Definition Js (A : Type) : Type := Env -> World -> World * (JsError + A).

Definition pure {A} (a : A) : Js A := fun _ w => (w, inr a).

Definition throw {A} (e : JsError) : Js A := fun _ w => (w, inl e).

Definition then_ {A B} (m : Js A) (k : A -> Js B) : Js B :=
  fun env w => match m env w with
               | (w', inl e) => (w', inl e)
               | (w', inr a) => k a env w'
               end.

(** [await op]. *)
Definition await (op : Op) : Js (result op) :=
  fun env w =>
    ({| performed := performed w ++ [op]; local := local w |}, env (performed w) op).

(** [promise.catch(handler)]. *)
Definition catch {A} (m : Js A) (handler : JsError -> Js A) : Js A :=
  fun env w => match m env w with
               | (w', inl e) => handler e env w'
               | (w', inr a) => (w', inr a)
               end.

Definition update (f : Local -> Local) : Js unit :=
  fun _ w => ({| performed := performed w; local := f (local w) |}, inr tt).

End Monad.

Arguments performed {Op Local} _.
Arguments local {Op Local} _.
Arguments mkWorld {Op Local} _ _.
Arguments pure {Op result Local A} _.
Arguments throw {Op result Local A} _.
Arguments then_ {Op result Local A B} _ _.
Arguments await {Op result Local} _.
Arguments catch {Op result Local A} _ _.
Arguments update {Op result Local} _.

Declare Scope js_scope.
Delimit Scope js_scope with js.
Notation "x <- m ;; k" := (then_ m (fun x => k))
  (at level 100, m at next level, right associativity) : js_scope.
Notation "m ;;; k" := (then_ m (fun _ => k))
  (at level 100, right associativity) : js_scope.

End Async.

(** ** The Hardhat scripts *)

Module Scripts.
Import Async.
Local Open Scope js_scope.

Record Signer : Type := { address : string }.

Record ContractFactory : Type := { contractName : string }.

(** A contract handle; [target] is its address (ethers v6). *)
Record Contract : Type := { target : string }.

Record TransactionResponse : Type := { hash : string }.

Record TransactionReceipt : Type := { blockNumber : Z }.

(** The Hardhat and ethers calls a script can await.  [deploy] resolves
    once the creation transaction is submitted; [waitForDeployment] and
    [wait] resolve once the transaction is included in a block. *)
Inductive Op : Type :=
| getSigners
| getContractFactory (name : string)
| deploy (factory : ContractFactory)
| waitForDeployment (c : Contract)
| getContractAt (name : string) (at_address : string)
| createNFT (c : Contract) (tokenURI : string)
| wait (tx : TransactionResponse).

Definition result (op : Op) : Type :=
  match op with
  | getSigners => list Signer
  | getContractFactory _ => ContractFactory
  | deploy _ => Contract
  | waitForDeployment _ => Contract
  | getContractAt _ _ => Contract
  | createNFT _ _ => TransactionResponse
  | wait _ => TransactionReceipt
  end.

(** Is the operation a wait for a transaction to be confirmed? *)
Definition confirms (op : Op) : bool :=
  match op with
  | waitForDeployment _ | wait _ => true
  | _ => false
  end.

(** The Node process: what was printed, and [process.exitCode]. *)
Record Process : Type := mkProcess {
  stdout : list (list string);
  stderr : list JsError;
  exitCode : option Z
}.

Definition Script (A : Type) : Type := Js Op result Process A.

Definition console_log (args : list string) : Script unit :=
  update (fun p => {| stdout := stdout p ++ [args]; stderr := stderr p;
                      exitCode := exitCode p |}).

Definition console_error (e : JsError) : Script unit :=
  update (fun p => {| stdout := stdout p; stderr := stderr p ++ [e];
                      exitCode := exitCode p |}).

Definition set_exitCode (c : Z) : Script unit :=
  update (fun p => {| stdout := stdout p; stderr := stderr p;
                      exitCode := Some c |}).

(** [deployer.address], where [deployer] is [undefined] when the list of
    signers is empty. *)
Definition get_address (deployer : option Signer) : Script string :=
  match deployer with
  | Some s => pure (address s)
  | None => throw (TypeError "Cannot read properties of undefined (reading 'address')")
  end.

(** [main] of scripts/deploy.js. *)
Definition deploy_main : Script unit :=
  signers <- await getSigners ;;
  let deployer := head signers in
  a <- get_address deployer ;;
  console_log ["Deploying contracts with the account:"; a] ;;;
  NFTContract <- await (getContractFactory "MorphNFT") ;;
  nft <- await (deploy NFTContract) ;;
  console_log ["NFT Contract deployed to:"; target nft].

(** [main] of scripts/mint.js. *)
Definition mint_main : Script unit :=
  signers <- await getSigners ;;
  let deployer := head signers in
  let nftAddress := "0x77778EBa8Ed0f023B1f62C7dFBf0D5DE210B0dd3" in
  NFTContract <- await (getContractAt "MorphNFT" nftAddress) ;;
  let tokenURI := "https://your-nft-metadata-uri.com/metadata.json" in
  tx <- await (createNFT NFTContract tokenURI) ;;
  _ <- await (wait tx) ;;
  console_log ["NFT minted with URI:"; tokenURI].

(** [main().catch((error) => { console.error(error); process.exitCode = 1; })] *)
Definition top_level (main : Script unit) : Script unit :=
  catch main (fun error => console_error error ;;; set_exitCode 1).

Definition deploy_js : Script unit := top_level deploy_main.

Definition mint_js : Script unit := top_level mint_main.

Definition fresh : World Op Process :=
  mkWorld [] {| stdout := []; stderr := []; exitCode := None |}.

(** Node's exit status: [process.exitCode] when it was set, 0 otherwise;
    1 when a rejection escapes the program. *)
Definition exit_status (r : World Op Process * (JsError + unit)) : Z :=
  match r.2 with
  | inl _ => 1
  | inr _ => default 0 (exitCode (local r.1))
  end.

(** [node script.js] in environment [env]. *)
Definition node (script : Script unit) (env : Env Op result)
  : World Op Process * (JsError + unit) :=
  script env fresh.

(** The propagation policy, for the script with body [main]: nothing
    escapes the top level; the top level awaits and prints nothing of its
    own on standard output; a throw of [main] is printed once on standard
    error and the exit status is 1; without a throw nothing is printed on
    standard error and the exit status is 0. *)
Definition caught_once (main : Script unit) (env : Env Op result) : Prop :=
  let m := main env fresh in
  let r := node (top_level main) env in
  r.2 = inr tt /\
  performed r.1 = performed m.1 /\
  stdout (local r.1) = stdout (local m.1) /\
  match m.2 with
  | inl e => stderr (local r.1) = [e] /\ exit_status r = 1
  | inr _ => stderr (local r.1) = [] /\ exit_status r = 0
  end.

(** An environment in which every operation succeeds. *)
Definition all_succeed : Env Op result :=
  fun _ op =>
    match op return JsError + result op with
    | getSigners => inr [ {| address := "0xf39F" |} ]
    | getContractFactory name => inr {| contractName := name |}
    | deploy _ => inr {| target := "0x5FbD" |}
    | waitForDeployment c => inr c
    | getContractAt _ a => inr {| target := a |}
    | createNFT _ _ => inr {| hash := "0xabc" |}
    | wait _ => inr {| blockNumber := 1 |}
    end.

(** An environment in which the operation after [n] performed ones is
    rejected with [reason]. *)
Definition fails_at (n : nat) (reason : string) : Env Op result :=
  fun done op =>
    if Nat.eqb (length done) n then inl (Rejected reason) else all_succeed done op.

End Scripts.

(** ** The viewer component *)

Module Viewer.
Import Async.
Local Open Scope js_scope.

Record Provider : Type := { ethereum : string }.

Record Signer : Type := { account : string; provider : Provider }.

(** What a contract handle sends its calls through: a provider gives
    read-only access, a signer can also send transactions. *)
Inductive ContractRunner : Type :=
| RunnerProvider (p : Provider)
| RunnerSigner (s : Signer).

Record Contract : Type := { target : string; runner : ContractRunner }.

Definition read_only (c : Contract) : bool :=
  match runner c with
  | RunnerProvider _ => true
  | RunnerSigner _ => false
  end.

Inductive Op : Type :=
| BrowserProvider
| getSigner (p : Provider)
| tokenURI (c : Contract) (tokenId : Z).

Definition result (op : Op) : Type :=
  match op with
  | BrowserProvider => Provider
  | getSigner _ => Signer
  | tokenURI _ _ => string
  end.

Definition contractAddress : string := "0x77778EBa8Ed0f023B1f62C7dFBf0D5DE210B0dd3".

(** The component's state is [nftURI], from [useState("")]. *)
Definition Handler (A : Type) : Type := Js Op result string A.

Definition setNFTURI (s : string) : Handler unit := update (fun _ => s).

(** [getNFTData] of App.js. *)
Definition getNFTData : Handler unit :=
  provider <- await BrowserProvider ;;
  signer <- await (getSigner provider) ;;
  let contract := {| target := contractAddress; runner := RunnerSigner signer |} in
  tokenURI <- await (tokenURI contract 0) ;;
  setNFTURI tokenURI.

(** What [App] renders; the paragraph is there only for a non-empty
    [nftURI]. *)
Record View : Type := {
  heading : string;
  button : string;
  paragraph : option string
}.

Definition App (nftURI : string) : View :=
  {| heading := "My Morph L2 NFT Collection";
     button := "Fetch NFT Data";
     paragraph := if String.eqb nftURI "" then None else Some ("NFT URI: " ++ nftURI)%string |}.

(** The page after loading: initial state, nothing awaited. *)
Definition mount : World Op string := mkWorld [] "".

(** What the user can do: the only control is the button, whose
    [onClick] is [getNFTData]. *)
Inductive UserAction : Type :=
| ClickFetch.

(** A click runs the handler; a rejection is left unhandled and only
    reported on the console. *)
Definition on_action (env : Env Op result) (a : UserAction) (w : World Op string)
  : World Op string :=
  match a with
  | ClickFetch => (getNFTData env w).1
  end.

Definition session (env : Env Op result) (actions : list UserAction) : World Op string :=
  foldl (fun w a => on_action env a w) mount actions.

(** The handles on which a read was issued. *)
Fixpoint handles (ops : list Op) : list Contract :=
  match ops with
  | [] => []
  | tokenURI c _ :: ops' => c :: handles ops'
  | _ :: ops' => handles ops'
  end.

(** A wallet that answers everything; the registry returns [uri]. *)
Definition wallet (uri : string) : Env Op result :=
  fun _ op =>
    match op return JsError + result op with
    | BrowserProvider => inr {| ethereum := "window.ethereum" |}
    | getSigner p => inr {| account := "0xf39F"; provider := p |}
    | tokenURI _ _ => inr uri
    end.

(** A wallet whose read of the registry is rejected. *)
Definition failing_read : Env Op result :=
  fun _ op =>
    match op return JsError + result op with
    | BrowserProvider => inr {| ethereum := "window.ethereum" |}
    | getSigner p => inr {| account := "0xf39F"; provider := p |}
    | tokenURI _ _ => inl (Rejected "execution reverted: ERC721: invalid token ID")
    end.

End Viewer.

(** ** The first version of the scripts and of the viewer (ethers v5) *)

Module Legacy.
Import Async.
Local Open Scope js_scope.

(** An ethers v5 contract factory: Hardhat binds it to the first
    configured account, so it has no signer when there is none. *)
Record ContractFactory : Type := {
  contractName : string;
  signer : option Scripts.Signer
}.

(** An ethers v5 contract handle; its address is the field [address]. *)
Record Contract : Type := { address : string }.

(** The Hardhat and ethers v5 calls the first scripts await. *)
Inductive Op : Type :=
| getSigners
| getContractFactory (name : string)
| deploy (factory : ContractFactory)
| createNFT (c : Contract) (tokenURI : string)
| wait (tx : Scripts.TransactionResponse).

Definition result (op : Op) : Type :=
  match op with
  | getSigners => list Scripts.Signer
  | getContractFactory _ => ContractFactory
  | deploy _ => Contract
  | createNFT _ _ => Scripts.TransactionResponse
  | wait _ => Scripts.TransactionReceipt
  end.

Definition Script (A : Type) : Type := Js Op result Scripts.Process A.

Definition console_log (args : list string) : Script unit :=
  update (fun p => {| Scripts.stdout := Scripts.stdout p ++ [args];
                      Scripts.stderr := Scripts.stderr p;
                      Scripts.exitCode := Scripts.exitCode p |}).

Definition console_error (e : JsError) : Script unit :=
  update (fun p => {| Scripts.stdout := Scripts.stdout p;
                      Scripts.stderr := Scripts.stderr p ++ [e];
                      Scripts.exitCode := Scripts.exitCode p |}).

(** [process.exit(code)]: the process ends with status [code].  In the
    scripts it is the last statement of the handler it stands in, so
    ending the process is recording the status. *)
Definition process_exit (code : Z) : Script unit :=
  update (fun p => {| Scripts.stdout := Scripts.stdout p;
                      Scripts.stderr := Scripts.stderr p;
                      Scripts.exitCode := Some code |}).

(** [deployer.address], where [deployer] is [undefined] when the list of
    signers is empty. *)
Definition get_address (deployer : option Scripts.Signer) : Script string :=
  match deployer with
  | Some s => pure (Scripts.address s)
  | None => throw (TypeError "Cannot read properties of undefined (reading 'address')")
  end.

Section Ethers.

(** The address check of ethers ([utils.getAddress], library code that is
    not under src/), taken as a parameter: whether a string is a
    well-formed account address. *)
Variable isAddress : string -> bool.

(** [NFTContract.attach(nftAddress)], as ethers v5 builds the handle,
    without any call to the network.  Through the factory's signer the
    handle has a provider, which resolves the address when a method is
    called.  A factory without signer has none: the handle is built only
    for a well-formed address, and for any other string the constructor
    throws. *)
Definition attach (factory : ContractFactory) (nftAddress : string) : Script Contract :=
  match signer factory with
  | Some _ => pure {| address := nftAddress |}
  | None =>
      if isAddress nftAddress then pure {| address := nftAddress |}
      else throw (ThrownError "provider is required to use ENS name as contract address")
  end.

(** [main] of the first deploy.js. *)
Definition deploy_main : Script unit :=
  signers <- await getSigners ;;
  let deployer := head signers in
  a <- get_address deployer ;;
  console_log ["Deploying contracts with the account:"; a] ;;;
  NFTContract <- await (getContractFactory "MorphNFT") ;;
  nft <- await (deploy NFTContract) ;;
  console_log ["NFT Contract deployed to:"; address nft].

(** [main] of the first mint.js. *)
Definition mint_main : Script unit :=
  signers <- await getSigners ;;
  let deployer := head signers in
  let nftAddress := "YOUR_DEPLOYED_NFT_ADDRESS" in
  NFTContract <- await (getContractFactory "MorphNFT") ;;
  nft <- attach NFTContract nftAddress ;;
  let tokenURI := "https://your-nft-metadata-uri.com/metadata.json" in
  tx <- await (createNFT nft tokenURI) ;;
  _ <- await (wait tx) ;;
  console_log ["NFT minted with URI:"; tokenURI].

(** [main().then(() => process.exit(0)).catch((error) =>
    { console.error(error); process.exit(1); })] *)
Definition top_level (main : Script unit) : Script unit :=
  catch (main ;;; process_exit 0)
        (fun error => console_error error ;;; process_exit 1).

Definition deploy_js : Script unit := top_level deploy_main.

Definition mint_js : Script unit := top_level mint_main.

End Ethers.

Definition fresh : World Op Scripts.Process :=
  mkWorld [] {| Scripts.stdout := []; Scripts.stderr := []; Scripts.exitCode := None |}.

(** [node script.js] in environment [env]. *)
Definition node (script : Script unit) (env : Env Op result)
  : World Op Scripts.Process * (JsError + unit) :=
  script env fresh.

End Legacy.

Module LegacyViewer.
Import Async Viewer.
Local Open Scope js_scope.

(** What the first [getNFTData] awaits: the provider built on
    [window.ethereum], and the read. *)
Inductive Op : Type :=
| Web3Provider
| tokenURI (c : Contract) (tokenId : Z).

Definition result (op : Op) : Type :=
  match op with
  | Web3Provider => Provider
  | tokenURI _ _ => string
  end.

Definition contractAddress : string := "YOUR_DEPLOYED_NFT_ADDRESS".

Definition Handler (A : Type) : Type := Js Op result string A.

Definition setNFTURI (s : string) : Handler unit := update (fun _ => s).

(** [getNFTData] of the first App.js: the handle is built on the provider. *)
Definition getNFTData : Handler unit :=
  provider <- await Web3Provider ;;
  let contract := {| target := contractAddress; runner := RunnerProvider provider |} in
  tokenURI <- await (tokenURI contract 0) ;;
  setNFTURI tokenURI.

Definition mount : World Op string := mkWorld [] "".

Definition on_action (env : Env Op result) (a : UserAction) (w : World Op string)
  : World Op string :=
  match a with
  | ClickFetch => (getNFTData env w).1
  end.

Definition session (env : Env Op result) (actions : list UserAction) : World Op string :=
  foldl (fun w a => on_action env a w) mount actions.

(** A wallet that answers everything; the registry returns [uri]. *)
Definition wallet (uri : string) : Env Op result :=
  fun _ op =>
    match op return JsError + result op with
    | Web3Provider => inr {| ethereum := "window.ethereum" |}
    | tokenURI _ _ => inr uri
    end.

End LegacyViewer.

(** ** The viewer in front of a registry *)

Module EndToEnd.
Import Async.

(** The wallet's network endpoint when the registry with storage [s] is
    the contract at [Viewer.contractAddress]: the wallet hands out its
    provider and signer, a read of [tokenURI] at that address is the
    registry's own [tokenURI], and a reverted read rejects the promise. *)
Definition endpoint (chk : MorphNFT.address -> MorphNFT.address -> MorphNFT.address -> Z -> bool)
  (s : MorphNFT.Registry) : Env Viewer.Op Viewer.result :=
  fun _ op =>
    match op return JsError + Viewer.result op with
    | Viewer.BrowserProvider => inr {| Viewer.ethereum := "window.ethereum" |}
    | Viewer.getSigner p => inr {| Viewer.account := "0xf39F"; Viewer.provider := p |}
    | Viewer.tokenURI c tokenId =>
        if String.eqb (Viewer.target c) Viewer.contractAddress then
          match (MorphNFT.exec chk (MorphNFT.TokenURI tokenId) s).1 with
          | inr (MorphNFT.VString uri) => inr uri
          | _ => inl (Rejected "execution reverted")
          end
        else inl (Rejected "no contract at this address")
    end.

End EndToEnd.

(** ** Environments used as examples *)

Module Environments.
Import Async Scripts.

(** Hardhat configured without any account: [getSigners] resolves to the
    empty list, everything else succeeds. *)
Definition no_signers : Env Op result :=
  fun done op =>
    match op as o return JsError + result o with
    | getSigners => inr []
    | o => all_succeed done o
    end.

(** A receiver check that refuses everyone. *)
Definition refuse_all : MorphNFT.address -> MorphNFT.address -> MorphNFT.address -> Z -> bool :=
  fun _ _ _ _ => false.

(** An address check by shape only: "0x" followed by forty characters. *)
Definition has_address_shape (a : string) : bool :=
  String.prefix "0x" a && Nat.eqb (String.length a) 42.

(** The first scripts with one configured account: every operation
    succeeds, the factory is bound to that account. *)
Definition legacy_all_succeed : Env Legacy.Op Legacy.result :=
  fun _ op =>
    match op return JsError + Legacy.result op with
    | Legacy.getSigners => inr [ {| address := "0xf39F" |} ]
    | Legacy.getContractFactory name =>
        inr {| Legacy.contractName := name;
               Legacy.signer := Some {| address := "0xf39F" |} |}
    | Legacy.deploy _ => inr {| Legacy.address := "0x5FbD" |}
    | Legacy.createNFT _ _ => inr {| hash := "0xabc" |}
    | Legacy.wait _ => inr {| blockNumber := 1 |}
    end.


End Environments.

(** ** Properties of the registry *)

Module MorphNFT_Theory.
Import MorphNFT.

Section Registry.

Variable chk : address -> address -> address -> Z -> bool.

Lemma createNFT_unfold sender uri s :
  createNFT chk sender uri s =
    match createNFT_guard chk sender s with
    | Some e => inl e
    | None => inr (tokenCounter s, minted sender uri s)
    end.
Proof.
  unfold createNFT, createNFT_guard, onlyOwner, _safeMint, _mint, _setTokenURI,
    _exists, _ownerOf, checked_add, bind, gets, require, modify, ret, revert.
  cbn [owner tokens tokenCounter tokenURIs set_tokens set_tokenURIs set_tokenCounter].
  destruct (N.eqb (owner s) sender) eqn:Ho; cbn; [|done].
  destruct (N.eqb sender zero_address) eqn:Hz; cbn; [done|].
  destruct (N.eqb (default zero_address (tokens s !! tokenCounter s)) zero_address) eqn:Hfree;
    cbn; [|done].
  destruct (chk sender zero_address sender (tokenCounter s)) eqn:Hc; cbn; [|done].
  rewrite lookup_insert_eq. cbn. rewrite Hz. cbn.
  destruct (bool_decide (tokenCounter s + 1 <= uint256_max)) eqn:Hb; cbn; done.
Qed.


Lemma createNFT_inv sender uri s id s' :
  createNFT chk sender uri s = inr (id, s') ->
  createNFT_guard chk sender s = None /\ id = tokenCounter s /\ s' = minted sender uri s.
Proof.
  rewrite createNFT_unfold. destruct (createNFT_guard chk sender s); [done|].
  intros [= <- <-]. done.
Qed.

Lemma guard_None sender s :
  createNFT_guard chk sender s = None ->
  owner s = sender /\ sender <> zero_address /\
  default zero_address (tokens s !! tokenCounter s) = zero_address /\
  tokenCounter s + 1 <= uint256_max.
Proof.
  unfold createNFT_guard.
  destruct (N.eqb_spec (owner s) sender); cbn; [|done].
  destruct (N.eqb_spec sender zero_address); cbn; [done|].
  destruct (N.eqb_spec (default zero_address (tokens s !! tokenCounter s)) zero_address);
    cbn; [|done].
  destruct (chk _ _ _ _); cbn; [|done].
  case_bool_decide; cbn; done.
Qed.

(** Reads are views: they return the storage they were given. *)
Lemma ownerOf_view tokenId s a s' : ownerOf tokenId s = inr (a, s') -> s' = s.
Proof.
  unfold ownerOf, _ownerOf, bind, gets, require, ret, revert.
  destruct (negb _); cbn; [|done]. by intros [= _ <-].
Qed.

Lemma tokenURI_view tokenId s u s' : tokenURI tokenId s = inr (u, s') -> s' = s.
Proof.
  unfold tokenURI, _exists, _ownerOf, bind, gets, require, ret, revert. cbn.
  destruct (negb _); cbn; [|done]. by intros [= _ <-].
Qed.

(** Every call either leaves the storage as it was or is a successful
    creation. *)
Lemma exec_cases c s :
  ((exec chk c s).2 = s /\ created [(exec chk c s).1] = []) \/
  (exists sender uri, c = CreateNFT sender uri /\ createNFT_guard chk sender s = None /\
     exec chk c s = (inr (VId (tokenCounter s)), minted sender uri s)).
Proof.
  destruct c as [sender uri|tokenId|tokenId]; cbn.
  - unfold transact, fmap_result. rewrite createNFT_unfold.
    destruct (createNFT_guard chk sender s) eqn:Hg; cbn; [by left|].
    right. by exists sender, uri.
  - left. unfold transact, fmap_result.
    destruct (ownerOf tokenId s) as [e|[a s']] eqn:Hr; cbn; [done|].
    by rewrite (ownerOf_view _ _ _ _ Hr).
  - left. unfold transact, fmap_result.
    destruct (tokenURI tokenId s) as [e|[a s']] eqn:Hr; cbn; [done|].
    by rewrite (tokenURI_view _ _ _ _ Hr).
Qed.

Lemma created_cons r rs : created (r :: rs) = created [r] ++ created rs.
Proof. destruct r as [e|[i|a|u]]; done. Qed.

(** The identifiers returned along a run count up from the counter the run
    started with to the counter it ends with. *)
Lemma run_created cs : forall s,
  tokenCounter s <= tokenCounter (run chk cs s).2 /\
  created (run chk cs s).1 =
    seqZ (tokenCounter s) (tokenCounter (run chk cs s).2 - tokenCounter s).
Proof.
  induction cs as [|c cs IH]; intros s; cbn [run fst snd].
  - split; [lia|]. by rewrite Z.sub_diag.
  - rewrite created_cons.
    destruct (IH (exec chk c s).2) as [Hle Hids].
    destruct (exec_cases c s) as [[Hs Hc]|(sender & uri & -> & Hg & Hx)].
    + rewrite Hc, Hids, Hs. rewrite Hs in Hle. done.
    + rewrite Hx in *. cbn [fst snd created minted tokenCounter app] in *.
      split; [lia|]. rewrite Hids.
      rewrite (seqZ_cons (tokenCounter s)) by lia.
      do 2 f_equal; lia.
Qed.

Lemma run_invariant d cs : forall s,
  invariant d s -> invariant d (run chk cs s).2.
Proof.
  induction cs as [|c cs IH]; intros s Hs; cbn [run snd]; [done|].
  apply IH.
  destruct (exec_cases c s) as [[-> _]|(sender & uri & -> & Hg & ->)]; [done|].
  cbn [snd]. destruct (guard_None _ _ Hg) as (Ho & Hnz & Hfree & Hmax).
  destruct Hs as (Hown & Hpos & Htok & Huri & Hval).
  unfold invariant, minted; cbn [owner tokenCounter tokens tokenURIs].
  split_and!; [done|lia|..].
  - intros id. rewrite lookup_insert_is_Some, Htok. lia.
  - intros id. rewrite lookup_insert_is_Some, Huri. lia.
  - intros id a. rewrite lookup_insert_Some. intros [[_ <-]|[_ Ha]].
    + split; congruence.
    + by apply (Hval id).
Qed.

Lemma constructor_invariant d : invariant d (constructor d).
Proof.
  unfold invariant, constructor; cbn. split_and!; [done|lia|..].
  - intros id. rewrite lookup_empty. split; [by intros [? ?]|lia].
  - intros id. rewrite lookup_empty. split; [by intros [? ?]|lia].
  - intros id a. by rewrite lookup_empty.
Qed.

Lemma reachable_invariant d cs : invariant d (run chk cs (constructor d)).2.
Proof. apply run_invariant, constructor_invariant. Qed.


(** *** Reads in terms of the mappings *)

Lemma exec_ownerOf_assigned s id a :
  tokens s !! id = Some a -> a <> zero_address ->
  exec chk (OwnerOf id) s = (inr (VAddress a), s).
Proof.
  intros Ha Hnz. cbn. unfold transact, fmap_result, ownerOf, _ownerOf, bind, gets, require.
  rewrite Ha. cbn. destruct (N.eqb_spec a zero_address); done.
Qed.

Lemma exec_tokenURI_assigned s id a u :
  tokens s !! id = Some a -> a <> zero_address -> tokenURIs s !! id = Some u ->
  exec chk (TokenURI id) s = (inr (VString u), s).
Proof.
  intros Ha Hnz Hu. cbn.
  unfold transact, fmap_result, tokenURI, _exists, _ownerOf, bind, gets, require, ret.
  rewrite Ha. cbn. destruct (N.eqb_spec a zero_address); [done|]. cbn. by rewrite Hu.
Qed.

Lemma exec_reads_unassigned s id :
  tokens s !! id = None ->
  exec chk (OwnerOf id) s = (inl NotFound, s) /\
  exec chk (TokenURI id) s = (inl NotFound, s).
Proof.
  intros Hn. cbn.
  unfold transact, fmap_result, ownerOf, tokenURI, _exists, _ownerOf, bind, gets, require, ret.
  rewrite Hn. done.
Qed.

(** An assigned identifier keeps its owner and its pointer along any run:
    [_mint] refuses an identifier that is already assigned. *)
Lemma run_keeps_token cs : forall s id a u,
  tokens s !! id = Some a -> a <> zero_address -> tokenURIs s !! id = Some u ->
  tokens (run chk cs s).2 !! id = Some a /\ tokenURIs (run chk cs s).2 !! id = Some u.
Proof.
  induction cs as [|c cs IH]; intros s id a u Ha Hnz Hu; cbn [run snd]; [done|].
  apply IH; [|done|];
    destruct (exec_cases c s) as [[-> _]|(sender & uri & -> & Hg & ->)]; try done;
    destruct (guard_None _ _ Hg) as (_ & _ & Hfree & _);
    cbn [snd minted tokens tokenURIs]; rewrite lookup_insert_ne; try done;
    intros Heq; rewrite Heq, Ha in Hfree; done.
Qed.

(** At the arithmetic limit nothing is created any more. *)
Lemma guard_at_limit sender s :
  tokenCounter s = uint256_max -> is_Some (createNFT_guard chk sender s).
Proof.
  intros Hmax. unfold createNFT_guard.
  rewrite bool_decide_eq_false_2 by (rewrite Hmax; lia).
  cbn [negb]. repeat case_match; eapply mk_is_Some; reflexivity.
Qed.

Lemma run_at_limit cs : forall s,
  tokenCounter s = uint256_max ->
  (run chk cs s).2 = s /\ created (run chk cs s).1 = [].
Proof.
  induction cs as [|c cs IH]; intros s Hmax; cbn [run fst snd]; [done|].
  rewrite created_cons.
  destruct (exec_cases c s) as [[Hs Hc]|(sender & uri & -> & Hg & _)].
  - rewrite Hc, Hs. by apply IH.
  - destruct (guard_at_limit sender s Hmax) as [e He]. congruence.
Qed.


(** *** When creations succeed *)

(** When every guard passes, [createNFT] succeeds. *)
Lemma createNFT_passes s sender uri :
  owner s = sender -> sender <> zero_address ->
  tokens s !! tokenCounter s = None ->
  chk sender zero_address sender (tokenCounter s) = true ->
  tokenCounter s < uint256_max ->
  exec chk (CreateNFT sender uri) s = (inr (VId (tokenCounter s)), minted sender uri s).
Proof.
  intros Ho Hnz Hfree Hc Hlt.
  cbn [exec]. unfold transact, fmap_result. rewrite createNFT_unfold.
  unfold createNFT_guard. rewrite Ho, N.eqb_refl, Hfree, Hc. cbn.
  destruct (N.eqb_spec sender zero_address); [done|]. cbn.
  rewrite bool_decide_eq_true_2 by lia. done.
Qed.

Lemma minted_invariant d uri s :
  invariant d s -> d <> zero_address -> invariant d (minted d uri s).
Proof.
  intros (Hown & Hpos & Htok & Huri & Hval) Hnz.
  unfold invariant, minted; cbn [owner tokenCounter tokens tokenURIs].
  split_and!; [done|lia|..].
  - intros id. rewrite lookup_insert_is_Some, Htok. lia.
  - intros id. rewrite lookup_insert_is_Some, Huri. lia.
  - intros id a. rewrite lookup_insert_Some. intros [[_ <-]|[_ Ha]]; [done|].
    by apply (Hval id).
Qed.

(** The owner's creations all succeed, one identifier after the other, as
    long as the receipts are accepted and the counter has room. *)
Lemma owner_creations d uris : forall s,
  invariant d s -> d <> zero_address ->
  (forall id, chk d zero_address d id = true) ->
  tokenCounter s + Z.of_nat (length uris) <= uint256_max ->
  let r := run chk (map (CreateNFT d) uris) s in
  r.1 = map (fun i => inr (VId i)) (seqZ (tokenCounter s) (Z.of_nat (length uris))) /\
  tokenCounter r.2 = tokenCounter s + Z.of_nat (length uris) /\
  (forall (i : nat) u, uris !! i = Some u ->
     tokens r.2 !! (tokenCounter s + Z.of_nat i) = Some d /\
     tokenURIs r.2 !! (tokenCounter s + Z.of_nat i) = Some u).
Proof.
  induction uris as [|uri uris IH]; intros s Hs Hnz Hc Hroom; cbn [map run length fst snd].
  { split_and!; [done|cbn; lia|]. intros i u Hi. by rewrite lookup_nil in Hi. }
  cbn [length] in Hroom.
  assert (tokens s !! tokenCounter s = None) as Hfree.
  { destruct Hs as (_ & _ & Htok & _). apply eq_None_not_Some. rewrite Htok. lia. }
  assert (owner s = d) as Ho by apply Hs.
  rewrite (createNFT_passes s d uri Ho Hnz Hfree (Hc _)) by lia. cbn [fst snd].
  destruct (IH (minted d uri s)) as (Hr & Hn & Hm);
    [by apply minted_invariant|done|done|cbn; lia|].
  cbn [minted tokenCounter] in Hr, Hn, Hm.
  split_and!.
  - rewrite Hr. rewrite (seqZ_cons (tokenCounter s)) by lia. cbn [map].
    do 3 f_equal; lia.
  - rewrite Hn. lia.
  - intros [|i] u Hi; cbn in Hi.
    + injection Hi as ->. rewrite Z.add_0_r.
      apply (run_keeps_token (map (CreateNFT d) uris) (minted d u s));
        [by cbn; rewrite lookup_insert_eq|done|by cbn; rewrite lookup_insert_eq].
    + replace (tokenCounter s + Z.of_nat (S i)) with (tokenCounter s + 1 + Z.of_nat i) by lia.
      by apply Hm.
Qed.
(** *** The claims about the registry *)

(** C1: from a freshly deployed registry the identifiers returned by the
    successful [createNFT] calls of any call sequence are 0, 1, 2, ... in
    call order, without gap or repeat; a [createNFT] call either returns
    the current [tokenCounter], having recorded the caller as its owner, the
    pointer as its metadata and the counter plus one, or changes nothing;
    it does succeed when the caller is the owner, is not [address(0)] and
    accepts the receipt, the identifier is free and the counter is below
    2^256 - 1; and the owner's creations after deployment all succeed: the
    n-th returns n - 1 and leaves the owner and the n-th pointer recorded
    for it. *)
Theorem createNFT_sequential_ids :
  (forall d cs,
     let r := run chk cs (constructor d) in
     created r.1 = seqZ 0 (tokenCounter r.2) /\ NoDup (created r.1)) /\
  (forall s sender uri,
     match exec chk (CreateNFT sender uri) s with
     | (inr v, s') =>
         v = VId (tokenCounter s) /\
         tokens s' = <[tokenCounter s := sender]> (tokens s) /\
         tokenURIs s' = <[tokenCounter s := uri]> (tokenURIs s) /\
         tokenCounter s' = tokenCounter s + 1 /\
         owner s' = owner s
     | (inl _, s') => s' = s
     end) /\
  (forall s sender uri,
     owner s = sender -> sender <> zero_address ->
     tokens s !! tokenCounter s = None ->
     chk sender zero_address sender (tokenCounter s) = true ->
     tokenCounter s < uint256_max ->
     exists s', exec chk (CreateNFT sender uri) s = (inr (VId (tokenCounter s)), s')) /\
  (forall d uris,
     d <> zero_address ->
     (forall id, chk d zero_address d id = true) ->
     Z.of_nat (length uris) <= uint256_max ->
     let r := run chk (map (CreateNFT d) uris) (constructor d) in
     r.1 = map (fun i => inr (VId i)) (seqZ 0 (Z.of_nat (length uris))) /\
     tokenCounter r.2 = Z.of_nat (length uris) /\
     (forall (i : nat) u, uris !! i = Some u ->
        tokens r.2 !! Z.of_nat i = Some d /\ tokenURIs r.2 !! Z.of_nat i = Some u)).
Proof.
  split_and!.
  - intros d cs r. subst r.
    destruct (run_created cs (constructor d)) as [_ Hids].
    cbn [constructor tokenCounter] in Hids. rewrite Z.sub_0_r in Hids.
    rewrite Hids. split; [done|]. apply NoDup_seqZ.
  - intros s sender uri.
    cbn [exec]. unfold transact, fmap_result. rewrite createNFT_unfold.
    destruct (createNFT_guard chk sender s); done.
  - intros s sender uri Ho Hnz Hfree Hc Hlt. eexists.
    by apply createNFT_passes.
  - intros d uris Hnz Hc Hroom.
    apply (owner_creations d uris (constructor d));
      [apply constructor_invariant|done|done|cbn; lia].
Qed.

(** C2: [createNFT] called by anyone but the owner fails with
    Authorization, and the counter, the owners and the metadata pointers
    are what they were. *)
Theorem createNFT_non_owner_rejected s sender uri :
  sender <> owner s ->
  exec chk (CreateNFT sender uri) s = (inl Authorization, s) /\
  (forall c, exec chk c (exec chk (CreateNFT sender uri) s).2 = exec chk c s).
Proof.
  intros Hne.
  assert (exec chk (CreateNFT sender uri) s = (inl Authorization, s)) as ->; [|done].
  cbn. unfold transact, fmap_result. rewrite createNFT_unfold.
  unfold createNFT_guard. destruct (N.eqb_spec (owner s) sender); [congruence|done].
Qed.

(** C3: once [createNFT(uri)] by [sender] has returned [id], whatever
    creations (successful or not) and reads follow, [sender] stays recorded
    as the owner of [id] and [uri] as its pointer: [ownerOf(id)] returns
    [sender] and [tokenURI(id)] returns [uri]. *)
Theorem created_token_reads_stable s sender uri id s' cs :
  exec chk (CreateNFT sender uri) s = (inr (VId id), s') ->
  let s'' := (run chk cs s').2 in
  tokens s'' !! id = Some sender /\
  tokenURIs s'' !! id = Some uri /\
  exec chk (OwnerOf id) s'' = (inr (VAddress sender), s'') /\
  exec chk (TokenURI id) s'' = (inr (VString uri), s'').
Proof.
  intros Hx s''.
  destruct (exec_cases (CreateNFT sender uri) s) as [[_ Hc]|(a & u & [= <- <-] & Hg & Hm)].
  { rewrite Hx in Hc. done. }
  rewrite Hx in Hm. injection Hm as -> ->.
  destruct (guard_None _ _ Hg) as (_ & Hnz & _ & _).
  destruct (run_keeps_token cs (minted sender uri s) (tokenCounter s) sender uri)
    as [Ht Hu]; [by cbn; rewrite lookup_insert_eq|done|by cbn; rewrite lookup_insert_eq|].
  split_and!; [done|done|by apply exec_ownerOf_assigned|by eapply exec_tokenURI_assigned].
Qed.

(** C4: in every state reached from deployment, an identifier with an owner
    has a metadata pointer and is below [tokenCounter]; [tokenCounter] is
    the number of successful creations; and the identifiers with an owner
    are exactly 0, ..., [tokenCounter - 1]. *)
Theorem registry_invariant_reachable d cs :
  let r := run chk cs (constructor d) in
  (forall id, is_Some (tokens r.2 !! id) ->
     is_Some (tokenURIs r.2 !! id) /\ id < tokenCounter r.2) /\
  tokenCounter r.2 = Z.of_nat (length (created r.1)) /\
  (forall id, is_Some (tokens r.2 !! id) <-> 0 <= id < tokenCounter r.2) /\
  dom (tokens r.2) = list_to_set (seqZ 0 (tokenCounter r.2)).
Proof.
  intros r. subst r.
  destruct (reachable_invariant d cs) as (_ & Hpos & Htok & Huri & _).
  destruct (run_created cs (constructor d)) as [_ Hids].
  cbn [constructor tokenCounter] in Hids. rewrite Z.sub_0_r in Hids.
  split_and!.
  - intros id Hid. apply Htok in Hid. split; [by apply Huri|lia].
  - rewrite Hids, length_seqZ. lia.
  - done.
  - apply set_eq. intros id.
    rewrite elem_of_dom, Htok, elem_of_list_to_set, elem_of_seqZ. lia.
Qed.

(** C5: in every state reached from deployment, [ownerOf] and [tokenURI]
    of an identifier at or above [tokenCounter] fail with NotFound and
    change nothing. *)
Theorem reads_beyond_counter_not_found d cs id :
  let s := (run chk cs (constructor d)).2 in
  tokenCounter s <= id ->
  exec chk (OwnerOf id) s = (inl NotFound, s) /\
  exec chk (TokenURI id) s = (inl NotFound, s).
Proof.
  intros s Hid. subst s. apply exec_reads_unassigned.
  destruct (reachable_invariant d cs) as (_ & _ & Htok & _ & _).
  apply eq_None_not_Some. rewrite Htok. lia.
Qed.

(** C9: [createNFT] mints to its caller, who must be the owner; so in every
    state reached from deployment by [d] the owner is still [d] and every
    recorded token owner is the registry's owner. *)
Theorem minted_tokens_belong_to_owner d cs id a :
  let s := (run chk cs (constructor d)).2 in
  tokens s !! id = Some a ->
  a = owner s /\ owner s = d /\
  (forall sender uri v s',
     exec chk (CreateNFT sender uri) s = (inr v, s') ->
     sender = owner s /\ tokens s' !! tokenCounter s = Some sender).
Proof.
  intros s Ha. subst s.
  destruct (reachable_invariant d cs) as (Hown & _ & _ & _ & Hval).
  destruct (Hval id a Ha) as [-> _]. rewrite Hown.
  split_and!; [done..|].
  intros sender uri v s' Hx.
  destruct (exec_cases (CreateNFT sender uri) (run chk cs (constructor d)).2)
    as [[_ Hc]|(x & u & [= <- <-] & Hg & Hm)].
  - rewrite Hx in Hc. cbn in Hc. destruct v; [done|..]; exfalso; revert Hx;
      cbn; unfold fmap_result; by destruct (transact _ _).1.
  - rewrite Hx in Hm. injection Hm as _ ->.
    destruct (guard_None _ _ Hg) as (Ho & _). rewrite Hown in Ho.
    split; [done|]. cbn. by rewrite lookup_insert_eq.
Qed.

(** C10: the counter is incremented with checked arithmetic: when
    [tokenCounter] is 2^256 - 1, [createNFT] reverts and changes nothing
    (with the arithmetic panic when every other guard passes), and no
    later call sequence creates an identifier; identifier 0 is not
    assigned again. *)
Theorem createNFT_never_wraps s sender uri cs :
  tokenCounter s = uint256_max ->
  (exists e, exec chk (CreateNFT sender uri) s = (inl e, s)) /\
  (owner s = sender -> sender <> zero_address ->
   tokens s !! uint256_max = None ->
   chk sender zero_address sender uint256_max = true ->
   exec chk (CreateNFT sender uri) s = (inl ArithmeticPanic, s)) /\
  created (run chk cs s).1 = [] /\ (run chk cs s).2 = s.
Proof.
  intros Hmax. split_and!.
  - destruct (guard_at_limit sender s Hmax) as [e He]. exists e.
    cbn. unfold transact, fmap_result. rewrite createNFT_unfold, He. done.
  - intros Ho Hnz Hfree Hc.
    cbn. unfold transact, fmap_result. rewrite createNFT_unfold.
    unfold createNFT_guard. rewrite Hmax, Hfree, Hc, Ho, N.eqb_refl. cbn.
    destruct (N.eqb_spec sender zero_address); done.
  - by apply run_at_limit.
  - by apply run_at_limit.
Qed.

(** *** Further properties of the registry *)

Lemma run_app cs1 : forall cs2 s,
  run chk (cs1 ++ cs2) s =
    ((run chk cs1 s).1 ++ (run chk cs2 (run chk cs1 s).2).1,
     (run chk cs2 (run chk cs1 s).2).2).
Proof.
  induction cs1 as [|c cs1 IH]; intros cs2 s; cbn [run app fst snd].
  - by destruct (run chk cs2 s).
  - by rewrite IH.
Qed.

Lemma run_grows d cs : forall s,
  invariant d s ->
  tokens s ⊆ tokens (run chk cs s).2 /\ tokenURIs s ⊆ tokenURIs (run chk cs s).2.
Proof.
  induction cs as [|c cs IH]; intros s Hs; cbn [run snd]; [done|].
  destruct (exec_cases c s) as [[-> _]|(sender & uri & -> & Hg & ->)]; [by apply IH|].
  cbn [snd].
  assert (invariant d (minted sender uri s)) as Hm.
  { pose proof (run_invariant d [CreateNFT sender uri] s Hs) as H.
    cbn [run snd] in H.
    destruct (exec_cases (CreateNFT sender uri) s) as [[Hx Hc]|(a & u & [= <- <-] & _ & Hx)];
      rewrite Hx in H; [|done].
    revert Hc. cbn. unfold transact, fmap_result. rewrite createNFT_unfold, Hg. done. }
  destruct (IH _ Hm) as [Ht Hu].
  destruct Hs as (_ & _ & Htok & Huri & _).
  split.
  - etrans; [|exact Ht]. cbn. apply insert_subseteq.
    apply eq_None_not_Some. rewrite Htok. lia.
  - etrans; [|exact Hu]. cbn. apply insert_subseteq.
    apply eq_None_not_Some. rewrite Huri. lia.
Qed.

(** X1: the registry only grows.  When a call sequence from deployment is
    extended, every owner entry and every pointer entry it had recorded is
    still there unchanged, the counter has not gone down and the owner is
    the same. *)
Theorem registry_append_only d cs1 cs2 :
  let s := (run chk cs1 (constructor d)).2 in
  let s' := (run chk (cs1 ++ cs2) (constructor d)).2 in
  tokens s ⊆ tokens s' /\ tokenURIs s ⊆ tokenURIs s' /\
  tokenCounter s <= tokenCounter s' /\ owner s' = owner s.
Proof.
  intros s s'. subst s s'. rewrite run_app. cbn [snd].
  pose proof (reachable_invariant d cs1) as Hs.
  destruct (run_grows d cs2 _ Hs) as [Ht Hu].
  destruct (run_created cs2 (run chk cs1 (constructor d)).2) as [Hle _].
  pose proof (run_invariant d cs2 _ Hs) as (Ho & _).
  destruct Hs as (Ho' & _). split_and!; [done..|congruence].
Qed.

Lemma run_counter_bounds cs : forall s,
  tokenCounter (run chk cs s).2 <= tokenCounter s + Z.of_nat (length cs) /\
  tokenCounter (run chk cs s).2 <= Z.max (tokenCounter s) uint256_max.
Proof.
  induction cs as [|c cs IH]; intros s; cbn [run snd length]; [lia|].
  destruct (IH (exec chk c s).2) as [Hn Hm].
  destruct (exec_cases c s) as [[Hs _]|(sender & uri & -> & Hg & Hx)].
  - rewrite Hs in *. lia.
  - rewrite Hx in *. cbn [snd minted tokenCounter] in *.
    destruct (guard_None _ _ Hg) as (_ & _ & _ & Hmax). lia.
Qed.

(** X2: from any storage, a call sequence never lowers [tokenCounter],
    raises it by at most one per call, and never takes it past 2^256 - 1
    (unless it started beyond). *)
Theorem tokenCounter_monotone_bounded s cs :
  let s' := (run chk cs s).2 in
  tokenCounter s <= tokenCounter s' /\
  tokenCounter s' <= tokenCounter s + Z.of_nat (length cs) /\
  tokenCounter s' <= Z.max (tokenCounter s) uint256_max.
Proof.
  intros s'. subst s'.
  destruct (run_created cs s) as [Hle _].
  destruct (run_counter_bounds cs s). done.
Qed.

(** X3: when the owner's account refuses the receipt of the token,
    [createNFT] fails with NonReceiver and the storage is the one before
    the call, although [_mint] had already recorded the owner: the write
    is undone with the call. *)
Theorem createNFT_refused_receipt_rolls_back s sender uri :
  owner s = sender -> sender <> zero_address ->
  tokens s !! tokenCounter s = None ->
  chk sender zero_address sender (tokenCounter s) = false ->
  exec chk (CreateNFT sender uri) s = (inl NonReceiver, s) /\
  exists s1, _mint sender (tokenCounter s) s = inr (tt, s1) /\
             tokens s1 !! tokenCounter s = Some sender /\ s1 <> s.
Proof.
  intros Ho Hnz Hfree Hc. split.
  - cbn. unfold transact, fmap_result. rewrite createNFT_unfold.
    unfold createNFT_guard. rewrite Ho, N.eqb_refl, Hfree, Hc. cbn.
    destruct (N.eqb_spec sender zero_address); done.
  - exists (set_tokens (insert (tokenCounter s) sender) s).
    unfold _mint, _exists, _ownerOf, bind, gets, require, modify, ret, revert.
    destruct (N.eqb_spec sender zero_address); [done|]. cbn.
    rewrite Hfree. cbn.
    split_and!; [done|by rewrite lookup_insert_eq|].
    intros Heq. apply (f_equal (fun r => tokens r !! tokenCounter s)) in Heq.
    cbn in Heq. rewrite lookup_insert_eq, Hfree in Heq. done.
Qed.

(** X4: in a state reached from deployment by [d], [createNFT] succeeds
    exactly when the caller is [d], is not [address(0)], accepts the
    receipt, and the counter is below 2^256 - 1; it never fails because
    the identifier is taken or unknown. *)
Theorem createNFT_succeeds_iff d cs sender uri :
  let s := (run chk cs (constructor d)).2 in
  let r := exec chk (CreateNFT sender uri) s in
  (r.1 = inr (VId (tokenCounter s)) <->
   sender = d /\ sender <> zero_address /\
   chk sender zero_address sender (tokenCounter s) = true /\
   tokenCounter s < uint256_max) /\
  r.1 <> inl AlreadyMinted /\ r.1 <> inl URISetOfNonexistentToken /\ r.1 <> inl NotFound.
Proof.
  intros s r. subst r.
  destruct (reachable_invariant d cs) as (Ho & _ & Htok & _ & _). fold s in Ho, Htok.
  assert (tokens s !! tokenCounter s = None) as Hfree.
  { apply eq_None_not_Some. rewrite Htok. lia. }
  cbn [exec]. unfold transact, fmap_result. rewrite createNFT_unfold.
  unfold createNFT_guard. rewrite Ho, Hfree. cbn.
  destruct (N.eqb_spec d sender) as [->|Hd]; cbn.
  2:{ split_and!; [|done..]. split; [done|]. intros [? _]. congruence. }
  destruct (N.eqb_spec sender zero_address) as [Hz|Hz]; cbn.
  { split_and!; [|done..]. split; [done|]. by intros (_ & ? & _). }
  destruct (chk sender zero_address sender (tokenCounter s)); cbn.
  2:{ split_and!; [|done..]. split; [done|]. by intros (_ & _ & ? & _). }
  case_bool_decide; cbn.
  - split_and!; [|done..]. split; [intros _; split_and!; [done..|lia]|done].
  - split_and!; [|done..]. split; [done|]. intros (_ & _ & _ & ?). lia.
Qed.

End Registry.

(** *** The scenarios of the specification, evaluated *)

Example scenario_results :
  (run accept_all scenario (constructor 7%N)).1 =
    [inr (VId 0); inr (VString "https://x/1.json"); inr (VAddress 7%N);
     inl Authorization; inr (VString "https://x/1.json"); inr (VId 1)] /\
  tokenCounter (run accept_all scenario (constructor 7%N)).2 = 2.
Proof. split; vm_compute; reflexivity. Qed.

Example createNFT_at_limit :
  exec accept_all (CreateNFT 7%N "u") (mkRegistry 7%N uint256_max ∅ ∅) =
    (inl ArithmeticPanic, mkRegistry 7%N uint256_max ∅ ∅).
Proof. reflexivity. Qed.

Lemma createNFT_sequential_ids_witness :
  let r := run accept_all
             (map (CreateNFT 7%N) ["https://x/1.json"; "https://x/2.json"])
             (constructor 7%N) in
  r.1 = map (fun i => inr (VId i)) (seqZ 0 2) /\
  tokenCounter r.2 = 2 /\
  (forall (i : nat) u, ["https://x/1.json"; "https://x/2.json"] !! i = Some u ->
     tokens r.2 !! Z.of_nat i = Some 7%N /\ tokenURIs r.2 !! Z.of_nat i = Some u).
Proof.
  apply (proj2 (proj2 (proj2 (createNFT_sequential_ids accept_all))) 7%N
           ["https://x/1.json"; "https://x/2.json"]);
    [discriminate|reflexivity|vm_compute; discriminate].
Defined.

Lemma createNFT_non_owner_rejected_witness :
  exec accept_all (CreateNFT 8%N "https://x/2.json") (constructor 7%N) =
    (inl Authorization, constructor 7%N).
Proof.
  apply (createNFT_non_owner_rejected accept_all (constructor 7%N) 8%N "https://x/2.json").
  cbn. discriminate.
Defined.

Lemma created_token_reads_stable_witness :
  let s'' := (run accept_all [CreateNFT 8%N "b"; CreateNFT 7%N "c"]
                (minted 7%N "https://x/1.json" (constructor 7%N))).2 in
  tokens s'' !! 0 = Some 7%N /\
  tokenURIs s'' !! 0 = Some "https://x/1.json" /\
  exec accept_all (OwnerOf 0) s'' = (inr (VAddress 7%N), s'') /\
  exec accept_all (TokenURI 0) s'' = (inr (VString "https://x/1.json"), s'').
Proof.
  apply (created_token_reads_stable accept_all (constructor 7%N) 7%N "https://x/1.json" 0).
  vm_compute. reflexivity.
Defined.

Lemma reads_beyond_counter_not_found_witness :
  let s := (run accept_all [CreateNFT 7%N "a"] (constructor 7%N)).2 in
  exec accept_all (OwnerOf 1) s = (inl NotFound, s) /\
  exec accept_all (TokenURI 1) s = (inl NotFound, s).
Proof.
  apply (reads_beyond_counter_not_found accept_all 7%N [CreateNFT 7%N "a"] 1).
  vm_compute. discriminate.
Defined.

Lemma minted_tokens_belong_to_owner_witness :
  let s := (run accept_all [CreateNFT 7%N "a"] (constructor 7%N)).2 in
  7%N = owner s /\ owner s = 7%N /\
  (forall sender uri v s',
     exec accept_all (CreateNFT sender uri) s = (inr v, s') ->
     sender = owner s /\ tokens s' !! tokenCounter s = Some sender).
Proof.
  apply (minted_tokens_belong_to_owner accept_all 7%N [CreateNFT 7%N "a"] 0 7%N).
  vm_compute. reflexivity.
Defined.

Lemma createNFT_never_wraps_witness :
  let s := mkRegistry 7%N uint256_max ∅ ∅ in
  (exists e, exec accept_all (CreateNFT 7%N "u") s = (inl e, s)) /\
  (owner s = 7%N -> 7%N <> zero_address ->
   tokens s !! uint256_max = None ->
   accept_all 7%N zero_address 7%N uint256_max = true ->
   exec accept_all (CreateNFT 7%N "u") s = (inl ArithmeticPanic, s)) /\
  created (run accept_all [CreateNFT 7%N "v"; OwnerOf 0] s).1 = [] /\
  (run accept_all [CreateNFT 7%N "v"; OwnerOf 0] s).2 = s.
Proof.
  apply (createNFT_never_wraps accept_all (mkRegistry 7%N uint256_max ∅ ∅) 7%N "u"
           [CreateNFT 7%N "v"; OwnerOf 0]).
  reflexivity.
Defined.

Lemma createNFT_refused_receipt_rolls_back_witness :
  exec Environments.refuse_all (CreateNFT 7%N "u") (constructor 7%N) = (inl NonReceiver, constructor 7%N) /\
  exists s1, _mint 7%N 0 (constructor 7%N) = inr (tt, s1) /\
             tokens s1 !! 0 = Some 7%N /\ s1 <> constructor 7%N.
Proof.
  apply (createNFT_refused_receipt_rolls_back Environments.refuse_all (constructor 7%N) 7%N "u");
    [reflexivity|discriminate|reflexivity|reflexivity].
Defined.

End MorphNFT_Theory.

(** ** Properties of the client scripts *)

Module Scripts_Theory.
Import Async Scripts.

Ltac run_script :=
  unfold caught_once, node, deploy_js, mint_js, top_level, deploy_main, mint_main,
    catch, then_, await, get_address, console_log, console_error, set_exitCode,
    update, pure, throw, exit_status, fresh;
  cbn [performed local fst snd stdout stderr exitCode app].

(** An operation is not in a list of operations built with other
    constructors. *)
Ltac not_among :=
  let H := fresh "H" in
  intros H;
  repeat (apply elem_of_cons in H as [H|H]; [discriminate H|]);
  by apply elem_of_nil in H.



(** The deploy script awaits no confirmation, whatever the environment
    answers. *)
Lemma deploy_awaits_no_confirmation (env : Env Op result) :
  Forall (fun op => confirms op = false) (performed (node deploy_js env).1).
Proof.
  run_script.
  destruct (env [] getSigners) as [e|[|deployer signers]]; cbn; [by repeat constructor..|].
  destruct (env [getSigners] (getContractFactory "MorphNFT")) as [e|f]; cbn;
    [by repeat constructor|].
  destruct (env [getSigners; getContractFactory "MorphNFT"] (deploy f)) as [e|c]; cbn;
    by repeat constructor.
Qed.

(** No operation is awaited twice by the deploy script: nothing is
    retried. *)
Lemma deploy_no_retry (env : Env Op result) :
  NoDup (performed (node deploy_js env).1).
Proof.
  run_script.
  destruct (env [] getSigners) as [e|[|deployer signers]]; cbn;
    [by apply NoDup_singleton..|].
  destruct (env [getSigners] (getContractFactory "MorphNFT")) as [e|f]; cbn.
  - apply NoDup_cons. split; [not_among|apply NoDup_singleton].
  - destruct (env [getSigners; getContractFactory "MorphNFT"] (deploy f)) as [e|c]; cbn;
      (apply NoDup_cons; split; [not_among|]);
      (apply NoDup_cons; split; [not_among|apply NoDup_singleton]).
Qed.

(** The mint script does: a run that prints its success message has
    awaited the transaction's confirmation last. *)
Lemma mint_awaits_confirmation (env : Env Op result) :
  stdout (local (node mint_js env).1) <> [] ->
  exists tx, last (performed (node mint_js env).1) = Some (wait tx).
Proof.
  run_script.
  destruct (env [] getSigners) as [e|signers]; cbn; [done|].
  destruct (env [getSigners] (getContractAt "MorphNFT" _)) as [e|c]; cbn; [done|].
  destruct (env [getSigners; _] (createNFT c _)) as [e|tx]; cbn; [done|].
  destruct (env [getSigners; _; _] (wait tx)) as [e|rc]; cbn; [done|].
  intros _. by exists tx.
Qed.

(** C6: on a run in which everything succeeds, the deploy script prints
    "NFT Contract deployed to:" with the address and exits with status 0
    having awaited [getSigners], [getContractFactory] and [deploy] only:
    no wait for the creation transaction to be confirmed comes before the
    report.  A rejected [deploy] is printed once, with exit status 1 and
    no second attempt. *)
Theorem deploy_reports_before_confirmation :
  let r := node deploy_js all_succeed in
  let f := node deploy_js (fails_at 2 "insufficient funds") in
  exit_status r = 0 /\
  performed r.1 =
    [getSigners; getContractFactory "MorphNFT"; deploy {| contractName := "MorphNFT" |}] /\
  stdout (local r.1) =
    [["Deploying contracts with the account:"; "0xf39F"];
     ["NFT Contract deployed to:"; "0x5FbD"]] /\
  forallb (fun op => negb (confirms op)) (performed r.1) = true /\
  exit_status f = 1 /\
  stderr (local f.1) = [Rejected "insufficient funds"] /\
  performed f.1 =
    [getSigners; getContractFactory "MorphNFT"; deploy {| contractName := "MorphNFT" |}].
Proof. vm_compute. repeat split; reflexivity. Qed.


Example deploy_without_signer :
  let r := node deploy_js (fun done op =>
             match op as o return JsError + result o with
             | getSigners => inr []
             | o => all_succeed done o
             end) in
  exit_status r = 1 /\
  stderr (local r.1) =
    [TypeError "Cannot read properties of undefined (reading 'address')"] /\
  performed r.1 = [getSigners].
Proof. vm_compute. repeat split; reflexivity. Qed.

Example mint_rejected_by_registry :
  let r := node mint_js (fails_at 2 "execution reverted: Ownable: caller is not the owner") in
  exit_status r = 1 /\
  stderr (local r.1) = [Rejected "execution reverted: Ownable: caller is not the owner"] /\
  stdout (local r.1) = [] /\
  length (performed r.1) = 3%nat.
Proof. vm_compute. repeat split; reflexivity. Qed.

Example mint_succeeds :
  let r := node mint_js all_succeed in
  exit_status r = 0 /\
  stdout (local r.1) =
    [["NFT minted with URI:"; "https://your-nft-metadata-uri.com/metadata.json"]] /\
  last (performed r.1) = Some (wait {| hash := "0xabc" |}).
Proof. vm_compute. repeat split; reflexivity. Qed.

(** *** Further properties of the scripts *)

(** X5: the mint script makes one attempt.  In every environment what it
    awaits is an initial part of: [getSigners], [getContractAt] at the
    fixed address (the address the viewer reads), [createNFT] with the
    fixed pointer on the handle [getContractAt] resolved to, [wait] on the
    transaction.  It prints its success message, with status 0, only when
    [wait] resolved last; otherwise it prints nothing on standard output,
    one error, and the status is 1. *)
Theorem mint_single_attempt (env : Env Op result) :
  let r := node mint_js env in
  let nftAddress := "0x77778EBa8Ed0f023B1f62C7dFBf0D5DE210B0dd3" in
  let tokenURI := "https://your-nft-metadata-uri.com/metadata.json" in
  nftAddress = Viewer.contractAddress /\
  (exists c tx,
     performed r.1 `prefix_of`
       [getSigners; getContractAt "MorphNFT" nftAddress; createNFT c tokenURI; wait tx] /\
     (In (createNFT c tokenURI) (performed r.1) ->
      env [getSigners] (getContractAt "MorphNFT" nftAddress) = inr c)) /\
  ((stdout (local r.1) = [["NFT minted with URI:"; tokenURI]] /\
    stderr (local r.1) = [] /\ exit_status r = 0 /\
    exists tx rc, last (performed r.1) = Some (wait tx) /\
                  env (removelast (performed r.1)) (wait tx) = inr rc) \/
   (stdout (local r.1) = [] /\ length (stderr (local r.1)) = 1%nat /\ exit_status r = 1)).
Proof.
  run_script.
  pose (c0 := {| target := "" |}). pose (tx0 := {| hash := "" |}).
  split; [done|].
  destruct (env [] getSigners) as [e|signers]; cbn.
  { split; [|by right]. exists c0, tx0. split; [by eexists|].
    intros [H|[]]. discriminate H. }
  destruct (env [getSigners] (getContractAt "MorphNFT" _)) as [e|c] eqn:Hc; cbn.
  { split; [|by right]. exists c0, tx0. split; [by eexists|].
    intros [H|[H|[]]]; discriminate H. }
  destruct (env [getSigners; _] (createNFT c _)) as [e|tx] eqn:Htx; cbn.
  { split; [|by right]. exists c, tx0. split; [by eexists|done]. }
  destruct (env [getSigners; _; _] (wait tx)) as [e|rc] eqn:Hrc; cbn.
  { split; [|by right]. exists c, tx. split; [by exists []|done]. }
  split; [exists c, tx; split; [by exists []|done]|].
  left. split_and!; [done..|]. by exists tx, rc.
Qed.

(** X6: the deploy script makes one attempt.  In every environment what
    it awaits is an initial part of [getSigners], [getContractFactory],
    [deploy].  With status 0 the address it reports is the target of the
    handle [deploy] resolved to; with status 1 one error was printed and
    no "deployed to" line. *)
Theorem deploy_single_attempt (env : Env Op result) :
  let r := node deploy_js env in
  (exists f, performed r.1 `prefix_of`
               [getSigners; getContractFactory "MorphNFT"; deploy f]) /\
  ((exit_status r = 0 /\ stderr (local r.1) = [] /\
    exists a f c,
      env [getSigners; getContractFactory "MorphNFT"] (deploy f) = inr c /\
      stdout (local r.1) =
        [["Deploying contracts with the account:"; a];
         ["NFT Contract deployed to:"; target c]]) \/
   (exit_status r = 1 /\ length (stderr (local r.1)) = 1%nat /\
    Forall (fun line => head line <> Some "NFT Contract deployed to:") (stdout (local r.1)))).
Proof.
  run_script.
  pose (f0 := {| contractName := "" |}).
  destruct (env [] getSigners) as [e|[|deployer signers]]; cbn.
  1,2: split; [exists f0; by eexists|right; by repeat constructor].
  destruct (env [getSigners] (getContractFactory "MorphNFT")) as [e|f]; cbn.
  { split; [exists f0; by eexists|right]. split_and!; [done..|]. by repeat constructor. }
  destruct (env [getSigners; getContractFactory "MorphNFT"] (deploy f)) as [e|c] eqn:Hc; cbn.
  { split; [exists f; by exists []|right]. split_and!; [done..|]. by repeat constructor. }
  split; [exists f; by exists []|left]. split_and!; [done..|].
  by exists (address deployer), f, c.
Qed.

(** X7: with no configured account ([getSigners] resolves to the empty
    list) the deploy script throws a TypeError on [deployer.address]
    before asking for the contract factory, and exits with status 1; the
    mint script never reads [deployer] and goes on to [getContractAt]. *)
Theorem scripts_without_signers (env : Env Op result) :
  env [] getSigners = inr [] ->
  let d := node deploy_js env in
  let m := node mint_js env in
  performed d.1 = [getSigners] /\ stdout (local d.1) = [] /\
  stderr (local d.1) =
    [TypeError "Cannot read properties of undefined (reading 'address')"] /\
  exit_status d = 1 /\
  take 2 (performed m.1) =
    [getSigners; getContractAt "MorphNFT" "0x77778EBa8Ed0f023B1f62C7dFBf0D5DE210B0dd3"].
Proof.
  intros Hs. run_script. cbn in Hs. rewrite Hs. cbn.
  split_and!; [done..|].
  destruct (env [getSigners] (getContractAt "MorphNFT" _)) as [e|c]; cbn; [done|].
  destruct (env [getSigners; _] (createNFT c _)) as [e|tx]; cbn; [done|].
  destruct (env [getSigners; _; _] (wait tx)) as [e|rc]; cbn; done.
Qed.

Lemma scripts_without_signers_witness :
  let d := node deploy_js Environments.no_signers in
  let m := node mint_js Environments.no_signers in
  performed d.1 = [getSigners] /\ stdout (local d.1) = [] /\
  stderr (local d.1) =
    [TypeError "Cannot read properties of undefined (reading 'address')"] /\
  exit_status d = 1 /\
  take 2 (performed m.1) =
    [getSigners; getContractAt "MorphNFT" "0x77778EBa8Ed0f023B1f62C7dFBf0D5DE210B0dd3"].
Proof. apply (scripts_without_signers Environments.no_signers). reflexivity. Defined.

End Scripts_Theory.

(** ** Properties of the viewer *)

Module Viewer_Theory.
Import Async Viewer.

(** C8, as stated, fails: the handle on which the viewer reads is built
    on the wallet's signer, so it is not a read-only handle. *)
Lemma viewer_handle_not_read_only :
  ~ Forall (fun c => read_only c = true)
      (handles (performed (session (wallet "ipfs://token/0") [ClickFetch]))).
Proof. vm_compute. intros H. inversion H as [|c l Hc _]. discriminate Hc. Qed.

Lemma session_snoc env actions a :
  session env (actions ++ [a]) = on_action env a (session env actions).
Proof. unfold session. by rewrite foldl_app. Qed.

Lemma handles_app ops1 ops2 : handles (ops1 ++ ops2) = handles ops1 ++ handles ops2.
Proof.
  induction ops1 as [|op ops1 IH]; [done|].
  destruct op; cbn; by rewrite IH.
Qed.

(** A click issues at most one read. *)
Lemma click_reads (env : Env Op result) (w : World Op string) :
  exists extra,
    performed (on_action env ClickFetch w) = performed w ++ extra /\
    (length (handles extra) <= 1)%nat.
Proof.
  unfold on_action, getNFTData, then_, await, setNFTURI, update.
  cbn [performed local fst snd].
  destruct (env (performed w) BrowserProvider) as [e|p]; cbn.
  { exists [BrowserProvider]. split; [done|cbn; lia]. }
  destruct (env (performed w ++ [BrowserProvider]) (getSigner p)) as [e|sg]; cbn.
  { exists [BrowserProvider; getSigner p]. rewrite <- (assoc_L (++)). split; [done|cbn; lia]. }
  rewrite <- !(assoc_L (++)). cbn [app].
  destruct (env (performed w ++ [BrowserProvider; getSigner p]) (tokenURI _ 0)) as [e|uri];
    cbn; eexists [BrowserProvider; getSigner p; tokenURI _ 0]; split; try done; cbn; lia.
Qed.

Lemma session_reads (env : Env Op result) (actions : list UserAction) :
  (length (handles (performed (session env actions))) <= length actions)%nat.
Proof.
  induction actions as [|a actions IH] using rev_ind; [done|].
  rewrite session_snoc, length_app. destruct a.
  destruct (click_reads env (session env actions)) as (extra & -> & Hlen).
  rewrite handles_app, length_app. cbn. lia.
Qed.

(** C8, amended: loading the page awaits nothing and shows no pointer,
    and in any session there are no more reads than clicks; a click asks
    the wallet for a provider and for that provider's signer, builds the
    handle at the fixed address on the signer the wallet answered (not
    read-only), reads [tokenURI(0)] and stores exactly the returned
    string, which is shown after "NFT URI: " when it is not empty; when
    the provider, the signer or the read fails, nothing further is awaited
    and the stored string and the page are what they were. *)
Theorem viewer_fetch_on_click (env : Env Op result) (w : World Op string) :
  performed (session env []) = [] /\
  paragraph (App (local (session env []))) = None /\
  (forall actions,
     (length (handles (performed (session env actions))) <= length actions)%nat) /\
  let r := getNFTData env w in
  let w' := on_action env ClickFetch w in
  match r.2 with
  | inr _ =>
      exists p sg uri,
        let c := {| target := contractAddress; runner := RunnerSigner sg |} in
        env (performed w) BrowserProvider = inr p /\
        env (performed w ++ [BrowserProvider]) (getSigner p) = inr sg /\
        performed w' = performed w ++ [BrowserProvider; getSigner p; tokenURI c 0] /\
        read_only c = false /\
        env (performed w ++ [BrowserProvider; getSigner p]) (tokenURI c 0) = inr uri /\
        local w' = uri /\
        paragraph (App (local w')) =
          if String.eqb uri "" then None else Some ("NFT URI: " ++ uri)%string
  | inl e =>
      local w' = local w /\ App (local w') = App (local w) /\
      (env (performed w) BrowserProvider = inl e /\
       performed w' = performed w ++ [BrowserProvider] \/
       (exists p,
          env (performed w) BrowserProvider = inr p /\
          env (performed w ++ [BrowserProvider]) (getSigner p) = inl e /\
          performed w' = performed w ++ [BrowserProvider; getSigner p]) \/
       (exists p sg,
          let c := {| target := contractAddress; runner := RunnerSigner sg |} in
          env (performed w) BrowserProvider = inr p /\
          env (performed w ++ [BrowserProvider]) (getSigner p) = inr sg /\
          env (performed w ++ [BrowserProvider; getSigner p]) (tokenURI c 0) = inl e /\
          performed w' = performed w ++ [BrowserProvider; getSigner p; tokenURI c 0]))
  end.
Proof.
  split; [done|]. split; [done|]. split; [apply session_reads|].
  unfold on_action, getNFTData, then_, await, setNFTURI, update.
  cbn [performed local fst snd].
  destruct (env (performed w) BrowserProvider) as [e|p] eqn:Hp; cbn.
  { split_and!; [done..|]. by left. }
  destruct (env (performed w ++ [BrowserProvider]) (getSigner p)) as [e|sg] eqn:Hs; cbn.
  { split_and!; [done..|]. right; left. exists p. by rewrite <- (assoc_L (++)). }
  rewrite <- !(assoc_L (++)). cbn [app].
  destruct (env (performed w ++ [BrowserProvider; getSigner p]) (tokenURI _ 0))
    as [e|uri] eqn:Hu; cbn.
  { split_and!; [done..|]. right; right. by exists p, sg. }
  exists p, sg, uri. done.
Qed.

Example viewer_shows_pointer :
  let w := session (wallet "https://x/1.json") [ClickFetch] in
  local w = "https://x/1.json" /\
  paragraph (App (local w)) = Some "NFT URI: https://x/1.json" /\
  map target (handles (performed w)) = [contractAddress].
Proof. vm_compute. repeat split; reflexivity. Qed.

Example viewer_failed_read_keeps_display :
  let w := session (wallet "https://x/1.json") [ClickFetch] in
  let w' := on_action failing_read ClickFetch w in
  local w' = "https://x/1.json" /\
  paragraph (App (local w')) = Some "NFT URI: https://x/1.json" /\
  length (performed w') = 6%nat.
Proof. vm_compute. repeat split; reflexivity. Qed.

Example viewer_empty_pointer_shows_nothing :
  paragraph (App (local (session (wallet "") [ClickFetch]))) = None.
Proof. reflexivity. Qed.

(** *** Sessions of the viewer *)

(** Settles a [Forall] over a list of operations given one by one, each
    either not a read or the read the handler issues. *)
Ltac each_op :=
  repeat (apply Forall_cons_2;
          [let c := fresh "c" in let t := fresh "t" in let H := fresh "H" in
           intros c t H; first [discriminate H | injection H as <- <-; by eauto]|]);
  apply Forall_nil_2.

(** What one click adds to a page. *)
Lemma click_step (env : Env Op result) (w : World Op string) :
  let w' := on_action env ClickFetch w in
  exists extra,
    performed w' = performed w ++ extra /\
    (length extra <= 3)%nat /\
    Forall (fun op => forall c tokenId, op = tokenURI c tokenId ->
              target c = contractAddress /\ tokenId = 0 /\
              exists sg, runner c = RunnerSigner sg) extra /\
    (local w' = local w \/
     exists done c, env done (tokenURI c 0) = inr (local w')).
Proof.
  unfold on_action, getNFTData, then_, await, setNFTURI, update.
  cbn [performed local fst snd].
  destruct (env (performed w) BrowserProvider) as [e|p]; cbn.
  { exists [BrowserProvider]. split_and!; [done|cbn; lia|each_op|by left]. }
  destruct (env (performed w ++ [BrowserProvider]) (getSigner p)) as [e|sg]; cbn.
  { exists [BrowserProvider; getSigner p]. rewrite <- (assoc_L (++)).
    split_and!; [done|cbn; lia|each_op|by left]. }
  rewrite <- !(assoc_L (++)). cbn [app].
  destruct (env (performed w ++ [BrowserProvider; getSigner p]) (tokenURI _ 0))
    as [e|uri] eqn:Hu; cbn.
  all: eexists [BrowserProvider; getSigner p; tokenURI _ 0].
  all: split_and!; [done|cbn; lia|each_op|].
  - by left.
  - right. by eexists _, _.
Qed.

(** X10: whatever the user clicks and the environment answers, every
    read the viewer issues is [tokenURI(0)] at the fixed address through a
    handle built on a signer, and a click awaits at most three
    operations. *)
Theorem viewer_reads_token_zero_only (env : Env Op result) (actions : list UserAction) :
  let w := session env actions in
  Forall (fun op => forall c tokenId, op = tokenURI c tokenId ->
            target c = contractAddress /\ tokenId = 0 /\
            exists sg, runner c = RunnerSigner sg)
         (performed w) /\
  (length (performed w) <= 3 * length actions)%nat.
Proof.
  induction actions as [|a actions IH] using rev_ind; [by split; [constructor|]|].
  cbn zeta in *. rewrite session_snoc, length_app. destruct a.
  destruct (click_step env (session env actions)) as (extra & -> & Hlen & Hok & _).
  destruct IH as [IH1 IH2]. split.
  - by apply Forall_app.
  - rewrite length_app. cbn. lia.
Qed.

(** X11: what the viewer shows is never invented: after any session the
    stored string is empty (nothing shown) or is an answer the environment
    gave to a [tokenURI(0)] read. *)
Theorem viewer_displays_read_answers_only (env : Env Op result) (actions : list UserAction) :
  let shown := local (session env actions) in
  shown = "" \/ exists done c, env done (tokenURI c 0) = inr shown.
Proof.
  induction actions as [|a actions IH] using rev_ind; [by left|].
  cbn zeta in *. rewrite session_snoc. destruct a.
  destruct (click_step env (session env actions)) as (_ & _ & _ & _ & [->|H]); [exact IH|by right].
Qed.

End Viewer_Theory.

(** ** Properties of the first version of the scripts *)

Module Legacy_Theory.
Import Async Legacy.





Example legacy_mint_succeeds :
  let r := node (mint_js Environments.has_address_shape) Environments.legacy_all_succeed in
  Scripts.exitCode (local r.1) = Some 0 /\
  Scripts.stdout (local r.1) =
    [["NFT minted with URI:"; "https://your-nft-metadata-uri.com/metadata.json"]] /\
  length (performed r.1) = 4%nat.
Proof. vm_compute. repeat split; reflexivity. Qed.

Example legacy_deploy_succeeds :
  let r := node deploy_js Environments.legacy_all_succeed in
  Scripts.exitCode (local r.1) = Some 0 /\
  Scripts.stdout (local r.1) =
    [["Deploying contracts with the account:"; "0xf39F"];
     ["NFT Contract deployed to:"; "0x5FbD"]].
Proof. vm_compute. repeat split; reflexivity. Qed.

End Legacy_Theory.

(** ** Properties of the first version of the viewer *)

Module LegacyViewer_Theory.
Import Async Viewer Viewer_Theory.

Lemma legacy_session_snoc env actions a :
  LegacyViewer.session env (actions ++ [a]) =
  LegacyViewer.on_action env a (LegacyViewer.session env actions).
Proof. unfold LegacyViewer.session. by rewrite foldl_app. Qed.

Lemma legacy_click_step (env : Env LegacyViewer.Op LegacyViewer.result)
    (w : World LegacyViewer.Op string) :
  let w' := LegacyViewer.on_action env ClickFetch w in
  exists extra,
    performed w' = performed w ++ extra /\
    Forall (fun op => forall c tokenId, op = LegacyViewer.tokenURI c tokenId ->
              target c = LegacyViewer.contractAddress /\ tokenId = 0 /\
              read_only c = true) extra /\
    (local w' = local w \/
     exists done c, read_only c = true /\
       env done (LegacyViewer.tokenURI c 0) = inr (local w')).
Proof.
  unfold LegacyViewer.on_action, LegacyViewer.getNFTData, then_, await,
    LegacyViewer.setNFTURI, update.
  cbn [performed local fst snd].
  destruct (env (performed w) LegacyViewer.Web3Provider) as [e|p]; cbn.
  { exists [LegacyViewer.Web3Provider]. split_and!; [done|each_op|by left]. }
  rewrite <- !(assoc_L (++)). cbn [app].
  destruct (env (performed w ++ [LegacyViewer.Web3Provider]) (LegacyViewer.tokenURI _ 0))
    as [e|uri] eqn:Hu; cbn.
  all: eexists [LegacyViewer.Web3Provider; LegacyViewer.tokenURI _ 0].
  all: split_and!; [done|each_op|].
  - by left.
  - right. eexists _, _. split; [|exact Hu]. done.
Qed.

(** X12: the first viewer reads through the provider: after any session
    every read it issued is [tokenURI(0)] at its fixed address on a
    read-only handle, and what it shows is empty or an answer to such a
    read. *)
Theorem legacy_viewer_reads_through_provider
    (env : Env LegacyViewer.Op LegacyViewer.result) (actions : list UserAction) :
  let w := LegacyViewer.session env actions in
  Forall (fun op => forall c tokenId, op = LegacyViewer.tokenURI c tokenId ->
            target c = LegacyViewer.contractAddress /\ tokenId = 0 /\
            read_only c = true)
         (performed w) /\
  (local w = "" \/
   exists done c, read_only c = true /\
     env done (LegacyViewer.tokenURI c 0) = inr (local w)).
Proof.
  induction actions as [|a actions IH] using rev_ind; [by split; [constructor|left]|].
  cbn zeta in *. rewrite legacy_session_snoc. destruct a.
  destruct (legacy_click_step env (LegacyViewer.session env actions))
    as (extra & -> & Hok & Hshown).
  destruct IH as [IH1 IH2]. split.
  - by apply Forall_app.
  - destruct Hshown as [->|H]; [exact IH2|by right].
Qed.

End LegacyViewer_Theory.

(** ** The viewer in front of the registry *)

Module EndToEnd_Theory.
Import Async MorphNFT MorphNFT_Theory EndToEnd.

Section Wired.
Variable chk : address -> address -> address -> Z -> bool.

(** One click in front of the registry: the page shows what the registry's
    [tokenURI(0)] returns, or stays empty when that read reverts. *)
Lemma click_on_registry (s : Registry) :
  local (Viewer.session (endpoint chk s) [Viewer.ClickFetch]) =
    match (exec chk (TokenURI 0) s).1 with
    | inr (VString uri) => uri
    | _ => ""
    end.
Proof.
  unfold Viewer.session, Viewer.on_action, Viewer.getNFTData, then_, await,
    Viewer.setNFTURI, update, Viewer.mount.
  cbn [foldl performed local fst snd app endpoint Viewer.target].
  rewrite String.eqb_refl.
  by destruct (exec chk (TokenURI 0) s).1 as [e|[i|a|u]].
Qed.

(** X13: when the deployer's first call mints [uri] (the deployer is not
    [address(0)] and accepts the receipt), then after any further calls a
    click in the viewer in front of that registry stores [uri], and shows
    it after "NFT URI: " unless it is empty. *)
Theorem viewer_shows_first_token d uri cs :
  d <> zero_address ->
  chk d zero_address d 0 = true ->
  let s := (run chk (CreateNFT d uri :: cs) (constructor d)).2 in
  let shown := local (Viewer.session (endpoint chk s) [Viewer.ClickFetch]) in
  shown = uri /\
  Viewer.paragraph (Viewer.App shown) =
    if String.eqb uri "" then None else Some ("NFT URI: " ++ uri)%string.
Proof.
  intros Hnz Hc s shown.
  assert (shown = uri) as ->; [|done]. subst shown s.
  rewrite click_on_registry. cbn [run snd].
  assert (exec chk (CreateNFT d uri) (constructor d) =
          (inr (VId 0), minted d uri (constructor d))) as ->.
  { cbn [exec]. unfold transact, fmap_result. rewrite createNFT_unfold.
    unfold createNFT_guard. cbn [constructor owner tokens tokenCounter].
    rewrite N.eqb_refl, lookup_empty, Hc. cbn.
    destruct (N.eqb_spec d zero_address); done. }
  cbn [snd].
  destruct (run_keeps_token chk cs (minted d uri (constructor d)) 0 d uri)
    as [Ht Hu]; [done..|].
  by rewrite (exec_tokenURI_assigned chk _ 0 d uri Ht Hnz Hu).
Qed.

(** X14: as long as no [createNFT] has succeeded, the registry's
    [tokenURI(0)] fails with NotFound, and a click in the viewer in front
    of it shows nothing. *)
Theorem viewer_before_first_mint d cs :
  let r := run chk cs (constructor d) in
  created r.1 = [] ->
  let w := Viewer.session (endpoint chk r.2) [Viewer.ClickFetch] in
  local w = "" /\ Viewer.paragraph (Viewer.App (local w)) = None /\
  exec chk (TokenURI 0) r.2 = (inl NotFound, r.2).
Proof.
  intros r Hnone w. subst w r.
  destruct (run_created chk cs (constructor d)) as [_ Hids].
  cbn [constructor tokenCounter] in Hids. rewrite Z.sub_0_r in Hids.
  destruct (reachable_invariant chk d cs) as (_ & Hpos & Htok & _ & _).
  assert (tokenCounter (run chk cs (constructor d)).2 = 0) as H0.
  { apply (f_equal length) in Hids. rewrite Hnone, length_seqZ in Hids. cbn in Hids. lia. }
  assert (tokens (run chk cs (constructor d)).2 !! 0 = None) as Hfree.
  { apply eq_None_not_Some. rewrite Htok, H0. lia. }
  destruct (exec_reads_unassigned chk _ 0 Hfree) as [_ Hread].
  rewrite click_on_registry, Hread. done.
Qed.

End Wired.

Lemma viewer_shows_first_token_witness :
  let s := (run accept_all [CreateNFT 7%N "https://x/1.json"; CreateNFT 7%N "https://x/2.json"]
              (constructor 7%N)).2 in
  let shown := local (Viewer.session (endpoint accept_all s) [Viewer.ClickFetch]) in
  shown = "https://x/1.json" /\
  Viewer.paragraph (Viewer.App shown) = Some "NFT URI: https://x/1.json".
Proof.
  apply (viewer_shows_first_token accept_all 7%N "https://x/1.json"
           [CreateNFT 7%N "https://x/2.json"]); [discriminate|reflexivity].
Defined.

Lemma viewer_before_first_mint_witness :
  let r := run accept_all [CreateNFT 8%N "https://x/2.json"; TokenURI 0] (constructor 7%N) in
  let w := Viewer.session (endpoint accept_all r.2) [Viewer.ClickFetch] in
  local w = "" /\ Viewer.paragraph (Viewer.App (local w)) = None /\
  exec accept_all (TokenURI 0) r.2 = (inl NotFound, r.2).
Proof.
  apply (viewer_before_first_mint accept_all 7%N [CreateNFT 8%N "https://x/2.json"; TokenURI 0]).
  reflexivity.
Defined.

End EndToEnd_Theory.
